(** * Covariance and correlation notebooks: the array expressions and their laws

    The two notebooks of the repository (the covariance/correlation notebook
    and its second part, on symmetric matrices and covariance matrices) are
    straight-line NumPy cells.  This development embeds the array
    expressions of those cells and settles the identities the notebooks
    demonstrate on their example data.

    The cells are read in two ways.

    - As formulas over the real numbers (Parts I to III, outside module
      [F64]).  A two-dimensional array of shape (n, p) is a matrix
      ['M[R]_(n, p)] over a real closed field [R]; [A.T] is [A^T],
      [A @ B] and [np.dot] on 2-D arrays are [A *m B], [np.trace] is
      [\tr], [np.linalg.matrix_rank] is [\rank].  Every operation is
      exact.  A division whose divisor is zero yields [0] in [R] where
      NumPy yields [nan] or [inf]; the main theorems carry the hypotheses
      (at least two observations, nonzero standard deviations) that keep
      the divisors away from zero.
    - As float64 computations (module [F64] and Part IV), on the kernel's
      primitive binary64 numbers, where every cell evaluates.  Part IV
      shows where rounding separates the float64 results from the real
      formulas.

    The cells that feed a missing value ([np.nan]) through a mean work on
    a value type, [npfloat], that has an explicit [NaN]; there an array is
    the sequence of its entries in row-major order. *)

From HB Require Import structures.
From mathcomp Require Import boot order algebra.
From mathcomp Require Import algC.
From Corelib Require PrimFloat FloatOps SpecFloat.
From Stdlib Require BinInt.

Set Implicit Arguments.
Unset Strict Implicit.
Unset Printing Implicit Defensive.

Import Order.Theory GRing.Theory Num.Theory.

Local Open Scope ring_scope.

(** * Part I: the array expressions *)

(** ** Products of a row vector with its transpose (part 2, cells 7 to 11) *)

Section RowProducts.

Variable R : comPzRingType.
Variable k : nat.

(** [np.dot(A, A.T)] for [A] of shape (1, k): a 1-by-1 array. *)
Definition inner_product (A : 'rV[R]_k) : 'M[R]_1 := A *m A^T.

(** [B = np.dot(A.T, A)] for [A] of shape (1, k): a k-by-k array. *)
Definition outer_product (A : 'rV[R]_k) : 'M[R]_k := A^T *m A.

End RowProducts.

(** ** Products of a data matrix with its transpose, and array
       comparison (part 2, cells 3 to 5 and 13 to 17) *)

Section GramMatrix.

Variable R : comPzRingType.
Variables n p : nat.

(** [C = np.dot(A.T, A)] for [A] of shape (n, p): a p-by-p array. *)
Definition gram (A : 'M[R]_(n, p)) : 'M[R]_p := A^T *m A.

(** [C == D] compares two arrays of one shape entry by entry. *)
Definition eq_elementwise (C D : 'M[R]_(n, p)) : 'M[bool]_(n, p) :=
  \matrix_(i, j) (C i j == D i j).

(** [M.all()]: whether every entry of a Boolean array is [True]. *)
Definition np_all (M : 'M[bool]_(n, p)) : bool :=
  [forall i, forall j, M i j].

End GramMatrix.

(** [np.identity(n)], [np.eye(n)]: ones on the main diagonal, zeros
    elsewhere. *)
Definition np_identity (R : comPzRingType) (n : nat) : 'M[R]_n :=
  \matrix_(i, j) (i == j)%:R.

(** The vector of cell 7, [A = np.array([2, -1, 6, 3])] with the added
    axis, as an integer array of shape (1, 4). *)
Definition A_cell7 : 'rV[int]_4 :=
  \row_j nth 0 [:: 2; -1; 6; 3] j.

(** ** Means, variances and covariance matrices *)

Section Statistics.

Variable R : rcfType.

Section Reductions.

Variables n p : nat.
Implicit Types (A : 'M[R]_(n, p)) (v : 'rV[R]_p) (w : 'cV[R]_n) (ddof : nat).

(** [np.mean(A)], [A.mean()]: with [axis=None] the array is flattened, the
    entries are summed and the sum is divided by their number [A.size]. *)
Definition np_mean A : R := (\sum_i \sum_j A i j) / (n * p)%:R.

(** [np.mean(A, axis=0)], [A.mean(axis=0)]: one mean per column. *)
Definition np_mean_axis0 A : 'rV[R]_p := \row_j ((\sum_i A i j) / n%:R).

(** [np.average(A, axis=1)]: one mean per row, kept as a column so that
    it reads as NumPy's [avg[:, None]]. *)
Definition np_mean_axis1 A : 'cV[R]_n := \col_i ((\sum_j A i j) / p%:R).

(** Broadcasting.  [A - c] for a scalar [c]; [A - v] and [A / v] for an
    array [v] of shape (p,), which is repeated down the rows; [A - w] for
    an array [w] of shape (n, 1), which is repeated along the columns. *)
Definition sub_scalar A (c : R) : 'M[R]_(n, p) := \matrix_(i, j) (A i j - c).
Definition sub_row A v : 'M[R]_(n, p) := \matrix_(i, j) (A i j - v 0 j).
Definition div_row A v : 'M[R]_(n, p) := \matrix_(i, j) (A i j / v 0 j).
Definition sub_col A w : 'M[R]_(n, p) := \matrix_(i, j) (A i j - w i 0).

(** [np.var(A, ddof=ddof)] on the flattened array.  NumPy's [_var] takes
    the mean over all [A.size] entries, sums the squared deviations and
    divides by [max(A.size - ddof, 0)]; the subtraction on [nat] truncates
    at [0] in the same way. *)
Definition np_var ddof A : R :=
  (\sum_i \sum_j (sub_scalar A (np_mean A)) i j ^+ 2) / (n * p - ddof)%:R.

(** [np.var(A, axis=0, ddof=ddof)]: the same, column by column, with
    divisor [max(n - ddof, 0)]. *)
Definition np_var_axis0 ddof A : 'rV[R]_p :=
  \row_j ((\sum_i (sub_row A (np_mean_axis0 A)) i j ^+ 2) / (n - ddof)%:R).

(** [np.std(A, axis=0, ddof=ddof)] is the square root of the variance. *)
Definition np_std_axis0 ddof A : 'rV[R]_p :=
  \row_j Num.sqrt (np_var_axis0 ddof A 0 j).

(** [A0 = A - A.mean(axis=0)]: the centered (anomaly) matrix. *)
Definition centered A : 'M[R]_(n, p) := sub_row A (np_mean_axis0 A).

(** [Z = (A - A.mean(axis=0)) / np.std(A, axis=0, ddof=1)]. *)
Definition standardized A : 'M[R]_(n, p) :=
  div_row (sub_row A (np_mean_axis0 A)) (np_std_axis0 1 A).

(** [1/(M.shape[0]-1) * (M.T @ M)], the expression of cells 23 and 33;
    [M.shape[0] - 1] is integer arithmetic on the number of rows. *)
Definition scaled_gram (M : 'M[R]_(n, p)) : 'M[R]_p :=
  (1 / (n%:R - 1)) *: (M^T *m M).

(** Cell 23: the covariance matrix by matrix operations. *)
Definition cov_by_hand A : 'M[R]_p := scaled_gram (centered A).

(** Cell 33: the correlation matrix by matrix operations. *)
Definition corr_by_hand A : 'M[R]_p := scaled_gram (standardized A).

(** The textbook pairwise covariance of columns [j] and [k],
    [1/(n-1) * sum_i (a_ij - mean_j) (a_ik - mean_k)]. *)
Definition pairwise_cov A (j k : 'I_p) : R :=
  (1 / (n%:R - 1)) *
  \sum_i (A i j - np_mean_axis0 A 0 j) * (A i k - np_mean_axis0 A 0 k).

End Reductions.

(** The two-dimensional array [c] that [np.cov(X, ddof=ddof)] builds for
    [X] of shape (p, n), each row a variable and each column an
    observation.  NumPy's body, without weights:
    [avg = average(X, axis=1)], [fact = X.shape[1] - ddof] (replaced by 0
    when not positive), [X -= avg[:, None]], [c = dot(X, X.T)],
    [c *= 1 / fact]. *)
Definition np_cov_2d (p n : nat) (ddof : nat) (X : 'M[R]_(p, n)) : 'M[R]_p :=
  let avg := np_mean_axis1 X in
  let fact := (n - ddof)%:R in
  let X' := sub_col X avg in
  let c := X' *m X'^T in
  map_mx (fun x => x * (1 / fact)) c.

(** [c.squeeze()] on a p-by-p array drops the axes of length one: a
    1-by-1 array becomes a zero-dimensional array, any other shape is
    kept. *)
Inductive squeezed (p : nat) : Type :=
  | Array0d of R
  | Array2d of 'M[R]_p.

Definition np_squeeze (p : nat) : 'M[R]_p -> squeezed p :=
  match p with
  | 1 => fun c => Array0d 1 (c ord0 ord0)
  | _ => fun c => Array2d c
  end.

(** [np.cov(X, ddof=ddof)] ends with [return c.squeeze()]. *)
Definition np_cov (p n : nat) (ddof : nat) (X : 'M[R]_(p, n)) : squeezed p :=
  np_squeeze (np_cov_2d ddof X).

(** [np.linalg.matrix_rank(A)] counts the singular values of [A] above a
    rounding tolerance; for exact entries that is the number of nonzero
    singular values, the rank of [A]. *)
Definition matrix_rank (n p : nat) (A : 'M[R]_(n, p)) : nat := \rank A.

(** [np.diagonal(C)] of a two-dimensional array, and of the result of
    [np.cov]: on a zero-dimensional array NumPy raises [ValueError],
    here [None]. *)
Definition np_diagonal (p : nat) (C : 'M[R]_p) : 'rV[R]_p := \row_j C j j.


(** [math.sqrt(v)]: the square root of a non-negative number; a negative
    argument raises [ValueError], here [None]. *)
Definition math_sqrt (v : R) : option R :=
  if 0 <= v then Some (Num.sqrt v) else None.

(** Part 1, variance cell: [xi = x - np.mean(x)] and
    [x_var = np.dot(xi, xi.T)/(np.size(x)-1)] for [x] of shape (1, n);
    the result is a 1-by-1 array. *)
Definition x_var (n : nat) (x : 'rV[R]_n) : 'M[R]_1 :=
  let xi := sub_scalar x (np_mean x) in
  map_mx (fun t => t / ((1 * n)%:R - 1)) (xi *m xi^T).

(** Part 1, standard deviation cell:
    [x_std = math.sqrt(np.dot(xi, xi.T)/(np.size(x)-1))]; the 1-by-1
    array is read as its entry. *)
Definition x_std (n : nat) (x : 'rV[R]_n) : option R :=
  math_sqrt (x_var x 0 0).

(** [np.dot] of two one-dimensional arrays of the same length is their
    inner product ([.T] does nothing to a one-dimensional array). *)
Definition np_dot_1d (n : nat) (u v : 'rV[R]_n) : R := \sum_i u 0 i * v 0 i.

(** Part 1, covariance cell: [xi = x - np.mean(x)], [yi = y - np.mean(y)]
    and [xy_cov = np.dot(xi.T, yi)/(np.size(x)-1)] for two series of
    length [n]. *)
Definition xy_cov (n : nat) (x y : 'rV[R]_n) : R :=
  let xi := sub_scalar x (np_mean x) in
  let yi := sub_scalar y (np_mean y) in
  np_dot_1d xi yi / ((1 * n)%:R - 1).

(** An integer array literal, [np.array([[...], ...])], read into [R]. *)
Definition mx_of_rows (n p : nat) (rows : seq (seq int)) : 'M[R]_(n, p) :=
  \matrix_(i, j) (nth 0 (nth [::] rows i) j)%:~R.

(** The 4-by-3 data matrix of part 2 (cell 13): four years of
    observations at three locations. *)
Definition A_example : 'M[R]_(4, 3) :=
  mx_of_rows 4 3 [:: [:: 4; -2; 12]; [:: -2; 1; -6]; [:: 12; -6; 36];
                     [:: -6; 3; -18]].

(** The vector [x = np.array([[1,2,3,4,5,6]])] of part 1. *)
Definition x_example : 'rV[R]_6 := mx_of_rows 1 6 [:: [:: 1; 2; 3; 4; 5; 6]].

(** The two series of the covariance cell of part 1. *)
Definition x_series : 'rV[R]_6 := mx_of_rows 1 6 [:: [:: -4; -1; 1; 3; 1; 6]].
Definition y_series : 'rV[R]_6 := mx_of_rows 1 6 [:: [:: -4; 2; -1; 2; 2; 5]].

(** ** Missing values *)

(** A float64 that may be [nan]; the finite values are idealised by [R]
    and the infinities are left out. *)
Inductive npfloat : Type := NaN | Fin of R.

Definition isnan (v : npfloat) : bool := if v is NaN then true else false.

(** Addition: [nan] absorbs. *)
Definition fadd (a b : npfloat) : npfloat :=
  match a, b with
  | Fin x, Fin y => Fin (x + y)
  | _, _ => NaN
  end.

(** [np.sum] of a flattened array.  NumPy adds fewer than 8 entries from
    left to right, as here, and groups the entries of a longer array
    ([F64.pairwise_sum]); for exact values the grouping does not change
    the sum, and [nan] absorbs in any order. *)
Definition np_sum (y : seq npfloat) : npfloat := foldl fadd (Fin 0) y.

(** Division of a sum by a count of entries.  A count of zero is only
    ever met with an empty sum, where NumPy computes 0/0, that is [nan]. *)
Definition divide_by_count (t : npfloat) (c : nat) : npfloat :=
  match t with
  | NaN => NaN
  | Fin x => if c == 0%N then NaN else Fin (x / c%:R)
  end.

(** [y.mean()], [np.mean(y)] over all the entries of [y]. *)
Definition np_mean_flat (y : seq npfloat) : npfloat :=
  divide_by_count (np_sum y) (size y).

(** [np.isnan(y)] and the mask [valid = ~np.isnan(y)]. *)
Definition np_isnan (y : seq npfloat) : bitseq := map isnan y.
Definition invert (m : bitseq) : bitseq := map negb m.

(** Boolean-mask indexing [y[valid]]: the selected entries, in order. *)
Definition bool_index (y : seq npfloat) (valid : bitseq) : seq npfloat :=
  mask valid y.

(** [np.nanmean(y)].  NumPy's body: [arr, mask = _replace_nan(y, 0)],
    [cnt = np.sum(~mask)], [tot = np.sum(arr)],
    [avg = _divide_by_count(tot, cnt)]. *)
Definition replace_nan (y : seq npfloat) (val : R) : seq npfloat :=
  map (fun v => if isnan v then Fin val else v) y.

Definition np_nanmean (y : seq npfloat) : npfloat :=
  let arr := replace_nan y 0 in
  let mask := np_isnan y in
  let cnt := count id (invert mask) in
  let tot := np_sum arr in
  divide_by_count tot cnt.

(** [y = np.array([[1, 2, 3, np.nan, 5, 6]])], flattened. *)
Definition y_example : seq npfloat :=
  [:: Fin 1; Fin 2; Fin 3; NaN; Fin 5; Fin 6].

End Statistics.

(** ** The cells in float64

    The same cells evaluated in IEEE binary64 with round to nearest even,
    on the kernel's primitive floats, so that every expression below
    computes.  An array of shape (n, p) is the list of its rows.

    Orders of evaluation.  [np.sum] over a contiguous array follows
    NumPy's pairwise summation ([pairwise_sum] below, after the C
    routine).  A reduction along axis 0 adds the rows one after the
    other.  The products [np.dot] and [@] are delegated to BLAS, whose
    kernels accumulate with a fused multiply-add; they are taken here in
    index order. *)

Module F64.

Import PrimFloat.
Local Open Scope float_scope.

Definition vec : Type := seq float.
Definition mat : Type := seq (seq float).

(** A count of entries as a float64 (exact below 2^53). *)
Fixpoint of_nat (n : nat) : float :=
  match n with
  | O => 0
  | S k => of_nat k + 1
  end.

(** [np.isnan]: [nan] is the only value different from itself. *)
Definition isnan (v : float) : bool := ~~ (v =? v).

(** Fused multiply-add [a * b + c] with a single rounding: the product
    and the sum are formed in a format wide enough to hold them exactly,
    then rounded once to binary64. *)
Definition wide_prec : BinNums.Z := BinInt.Z.of_nat 4400.
Definition wide_emax : BinNums.Z := BinInt.Z.of_nat 4400.

Definition fma (a b c : float) : float :=
  FloatOps.SF2Prim
    (match SpecFloat.SFadd wide_prec wide_emax
             (SpecFloat.SFmul wide_prec wide_emax
                (FloatOps.Prim2SF a) (FloatOps.Prim2SF b))
             (FloatOps.Prim2SF c) with
     | SpecFloat.S754_finite sg m e =>
         SpecFloat.binary_normalize FloatOps.prec FloatOps.emax
           (if sg then BinNums.Zneg m else BinNums.Zpos m) e sg
     | s => s
     end).

(** NumPy's [pairwise_sum] (loops_utils.h.src).  Fewer than 8 entries
    are added from left to right starting from 0.  Up to 128 entries go
    through 8 accumulators, [r[j] += a[i + j]] block by block, which are
    then combined as [((r0+r1)+(r2+r3)) + ((r4+r5)+(r6+r7))] before the
    entries left over are added one by one.  A longer array is split in
    two, the first part a multiple of 8 long. *)
Definition tree8 (r : vec) : float :=
  let x i := nth 0 r i in
  ((x 0%N + x 1%N) + (x 2%N + x 3%N)) + ((x 4%N + x 5%N) + (x 6%N + x 7%N)).

Fixpoint lanes (fuel : nat) (r a : vec) : vec * vec :=
  match fuel with
  | O => (r, a)
  | S fuel' =>
      if (size a < 8)%N then (r, a)
      else lanes fuel' [seq q.1 + q.2 | q <- zip r (take 8 a)] (drop 8 a)
  end.

Fixpoint pairwise_sum (fuel : nat) (a : vec) : float :=
  let n := size a in
  if (n < 8)%N then foldl add 0 a
  else if (n <= 128)%N then
    let: (r, rest) := lanes n (take 8 a) (drop 8 a) in
    foldl add (tree8 r) rest
  else
    match fuel with
    | O => 0
    | S fuel' =>
        let n2 := (n %/ 2 - (n %/ 2) %% 8)%N in
        pairwise_sum fuel' (take n2 a) + pairwise_sum fuel' (drop n2 a)
    end.

(** [np.sum(a)] of a flattened array: the reduction starts from the
    identity 0 and adds the pairwise sum of the entries. *)
Definition np_sum (a : vec) : float := 0 + pairwise_sum (size a) a.

(** [a.mean()], [np.mean(a)] on the flattened array. *)
Definition np_mean (a : vec) : float := np_sum a / of_nat (size a).

(** [np.var(a, ddof=ddof)] on the flattened array ([_var]):
    [arrmean = sum / n], [x = a - arrmean], [x = x * x],
    [ret = sum(x) / max(n - ddof, 0)]. *)
Definition np_var (ddof : nat) (a : vec) : float :=
  let arrmean := np_mean a in
  let x := [seq v - arrmean | v <- a] in
  let x := [seq v * v | v <- x] in
  np_sum x / of_nat (size a - ddof).

(** [A.T]. *)
Definition transpose (A : mat) : mat :=
  let p := size (head [::] A) in
  [seq [seq nth 0 row j | row <- A] | j <- iota 0 p].

(** Sums along axis 0: the rows are added one after the other. *)
Definition sum_axis0 (A : mat) : vec :=
  let p := size (head [::] A) in
  foldl (fun acc row => [seq q.1 + q.2 | q <- zip acc row]) (nseq p 0) A.

(** [np.mean(A, axis=0)], [A.mean(axis=0)]. *)
Definition np_mean_axis0 (A : mat) : vec :=
  [seq t / of_nat (size A) | t <- sum_axis0 A].

(** Broadcasting of a row against the rows of [A]. *)
Definition sub_row (A : mat) (v : vec) : mat :=
  [seq [seq q.1 - q.2 | q <- zip row v] | row <- A].
Definition div_row (A : mat) (v : vec) : mat :=
  [seq [seq q.1 / q.2 | q <- zip row v] | row <- A].

(** [np.var(A, axis=0, ddof=ddof)] and [np.std(A, axis=0, ddof=ddof)]. *)
Definition np_var_axis0 (ddof : nat) (A : mat) : vec :=
  let x := sub_row A (np_mean_axis0 A) in
  let x := [seq [seq v * v | v <- row] | row <- x] in
  [seq t / of_nat (size A - ddof) | t <- sum_axis0 x].

Definition np_std_axis0 (ddof : nat) (A : mat) : vec :=
  [seq sqrt t | t <- np_var_axis0 ddof A].

(** The BLAS inner product of two vectors, and the matrix product
    [A @ B], [np.dot(A, B)]. *)
Definition blas_dot (u v : vec) : float :=
  foldl (fun acc q => fma q.1 q.2 acc) 0 (zip u v).

Definition matmul (A B : mat) : mat :=
  [seq [seq blas_dot row col | col <- transpose B] | row <- A].

(** [s * M] for a Python float [s]. *)
Definition scale (s : float) (M : mat) : mat :=
  [seq [seq s * v | v <- row] | row <- M].

(** [A0 = A - A.mean(axis=0)]. *)
Definition centered (A : mat) : mat := sub_row A (np_mean_axis0 A).

(** [Z = (A - A.mean(axis=0)) / np.std(A, axis=0, ddof=1)]. *)
Definition standardized (A : mat) : mat :=
  div_row (sub_row A (np_mean_axis0 A)) (np_std_axis0 1 A).

(** [1/(M.shape[0]-1) * (M.T @ M)]. *)
Definition scaled_gram (M : mat) : mat :=
  scale (1 / (of_nat (size M) - 1)) (matmul (transpose M) M).

Definition cov_by_hand (A : mat) : mat := scaled_gram (centered A).
Definition corr_by_hand (A : mat) : mat := scaled_gram (standardized A).

(** [np.cov(X, ddof=ddof)] for [X] with at least two rows (variables),
    where the final [squeeze] keeps the shape: the mean of each row is
    removed, and [dot(X, X.T)] is multiplied by [1 / fact].  (With fewer
    than 8 observations the row means are left-to-right sums whatever
    the memory layout of [X].) *)
Definition np_cov (ddof : nat) (X : mat) : mat :=
  let n := size (head [::] X) in
  let avg := [seq np_sum row / of_nat n | row <- X] in
  let fact := of_nat (n - ddof) in
  let X' := [seq [seq v - q.2 | v <- q.1] | q <- zip X avg] in
  let c := matmul X' (transpose X') in
  [seq [seq v * (1 / fact) | v <- row] | row <- c].

(** [np.diagonal(C)]. *)
Definition np_diagonal (C : mat) : vec :=
  [seq nth 0 (nth [::] C i) i | i <- iota 0 (size C)].

(** Part 1: [x_var = np.dot(xi, xi.T)/(np.size(x)-1)] with
    [xi = x - np.mean(x)], for [x] of shape (1, n) given by its row. *)
Definition x_var (x : vec) : float :=
  let xi := [seq v - np_mean x | v <- x] in
  blas_dot xi xi / (of_nat (size x) - 1).

(** Part 1: [np.nanmean(y)] and the mask route [np.mean(y[valid])]. *)
Definition replace_nan (y : vec) (val : float) : vec :=
  [seq if isnan v then val else v | v <- y].

Definition np_nanmean (y : vec) : float :=
  let arr := replace_nan y 0 in
  let mask := [seq isnan v | v <- y] in
  let cnt := count id [seq ~~ b | b <- mask] in
  np_sum arr / of_nat cnt.

Definition valid (y : vec) : bitseq := [seq ~~ isnan v | v <- y].
Definition bool_index (y : vec) (m : bitseq) : vec := mask m y.


(** The data matrix of part 2 and the vectors of part 1, as float64. *)
Definition A_example : mat :=
  [:: [:: 4; -2; 12]; [:: -2; 1; -6]; [:: 12; -6; 36]; [:: -6; 3; -18]].

Definition x_example : vec := [:: 1; 2; 3; 4; 5; 6].
Definition y_example : vec := [:: 1; 2; 3; nan; 5; 6].





End F64.

(** * Part II: the laws the notebooks demonstrate *)

(** ** Row vector products *)

Section RowProductLaws.

Variable R : comPzRingType.
Variable k : nat.
Implicit Types A : 'rV[R]_k.

(** Each entry of [B] is "the simple product of those positions in A". *)
Lemma outer_productE A i j : outer_product A i j = A 0 i * A 0 j.
Proof. by rewrite /outer_product !mxE big_ord1 mxE. Qed.

Lemma inner_productE A : inner_product A 0 0 = \sum_i A 0 i ^+ 2.
Proof.
rewrite /inner_product !mxE; apply: eq_bigr => i _.
by rewrite mxE expr2.
Qed.

Lemma outer_product_sym A : (outer_product A)^T = outer_product A.
Proof. by rewrite /outer_product trmx_mul trmxK. Qed.

Lemma trace_outer_product A : \tr (outer_product A) = inner_product A 0 0.
Proof.
rewrite /outer_product /inner_product mxtrace_mulC.
by rewrite /mxtrace big_ord1.
Qed.

(** C8.  For a row vector [A] with [k] entries, the outer product
    [A.T @ A] is a k-by-k matrix equal to its transpose, and its trace
    is the single entry of the inner product [A @ A.T], which is the sum
    of the squares of the entries of [A]. *)
Theorem outer_product_symmetric_trace A :
  [/\ (outer_product A)^T = outer_product A,
      \tr (outer_product A) = inner_product A 0 0
    & inner_product A 0 0 = \sum_i A 0 i ^+ 2].
Proof.
split; [exact: outer_product_sym | exact: trace_outer_product |].
exact: inner_productE.
Qed.

End RowProductLaws.

(** Cell 7 prints [[50]]; the trace of the 4-by-4 product of cell 9 is
    the same number. *)
Example inner_product_cell7 : inner_product A_cell7 0 0 = 50.
Proof.
rewrite inner_productE !big_ord_recl big_ord0 !mxE /=.
by [].
Qed.

Example trace_outer_product_cell7 : \tr (outer_product A_cell7) = 50.
Proof. by rewrite trace_outer_product inner_product_cell7. Qed.

(** ** Centering and the covariance matrix *)

Section CovarianceLaws.

Variable R : rcfType.
Variables n p : nat.
Implicit Types A : 'M[R]_(n, p).

Lemma natr_rows_neq0 : (0 < n)%N -> n%:R != 0 :> R.
Proof. by move=> n_gt0; rewrite pnatr_eq0 -lt0n. Qed.

Lemma pred_rowsE : (0 < n)%N -> (n - 1)%:R = n%:R - 1 :> R.
Proof. by move=> n_gt0; rewrite natrB. Qed.


Lemma centeredE A i j : centered A i j = A i j - (\sum_i' A i' j) / n%:R.
Proof. by rewrite /centered /sub_row /np_mean_axis0 !mxE. Qed.

(** Each column of the centered matrix sums to zero. *)
Lemma sum_centered A j : (0 < n)%N -> \sum_i centered A i j = 0.
Proof.
move=> n_gt0; under eq_bigr do rewrite centeredE.
rewrite sumrB sumr_const card_ord -mulr_natr -mulrA mulVf ?natr_rows_neq0 //.
by rewrite mulr1 subrr.
Qed.


(** Centering twice is centering once. *)
Lemma centered_idem A : (0 < n)%N -> centered (centered A) = centered A.
Proof.
move=> n_gt0; apply/matrixP => i j.
by rewrite centeredE sum_centered // mul0r subr0.
Qed.

(** What [np.cov] subtracts from the transposed data is what the notebook
    subtracts by broadcasting. *)
Lemma sub_col_tr A : sub_col A^T (np_mean_axis1 A^T) = (centered A)^T.
Proof.
apply/matrixP => j i; rewrite /sub_col /np_mean_axis1 !mxE.
by congr (_ - _ / _); apply: eq_bigr => i' _; rewrite mxE.
Qed.

Lemma np_covE ddof A j k :
  np_cov_2d ddof A^T j k =
  (\sum_i centered A i j * centered A i k) * (1 / (n - ddof)%:R).
Proof.
rewrite /np_cov_2d /= sub_col_tr trmxK !mxE; congr (_ * _).
by apply: eq_bigr => i _; rewrite mxE.
Qed.

Lemma scaled_gramE (M : 'M[R]_(n, p)) j k :
  scaled_gram M j k = (1 / (n%:R - 1)) * \sum_i M i j * M i k.
Proof.
rewrite /scaled_gram !mxE; congr (_ * _).
by apply: eq_bigr => i _; rewrite mxE.
Qed.

Lemma np_cov_by_hand A : (0 < n)%N -> np_cov_2d 1 A^T = cov_by_hand A.
Proof.
move=> n_gt0; apply/matrixP => j k.
by rewrite np_covE /cov_by_hand scaled_gramE pred_rowsE // mulrC.
Qed.

Lemma scaled_gram_sym (M : 'M[R]_(n, p)) : (scaled_gram M)^T = scaled_gram M.
Proof. by rewrite /scaled_gram linearZ /= trmx_mul trmxK. Qed.

Lemma np_cov_centered A :
  (0 < n)%N -> np_cov_2d 1 (centered A)^T = np_cov_2d 1 A^T.
Proof.
move=> n_gt0; apply/matrixP => j k.
by rewrite !np_covE centered_idem.
Qed.

Lemma np_cov_diagonal A : np_diagonal (np_cov_2d 1 A^T) = np_var_axis0 1 A.
Proof.
apply/rowP => j; rewrite /np_diagonal mxE np_covE /np_var_axis0 mxE mul1r.
by congr (_ / _); apply: eq_bigr => i _; rewrite expr2.
Qed.

(** The pairwise covariance of two columns is the [xy_cov] of part 1
    applied to them as series. *)
Lemma pairwise_cov_xy_cov A j k :
  pairwise_cov A j k = xy_cov (col j A)^T (col k A)^T.
Proof.
have col_mean l : np_mean (col l A)^T = np_mean_axis0 A 0 l.
  rewrite /np_mean /np_mean_axis0 mxE big_ord1 mul1n; congr (_ / _).
  by apply: eq_bigr => i _; rewrite !mxE.
rewrite /pairwise_cov /xy_cov /np_dot_1d /= mul1n div1r mulrC !col_mean.
move: (np_mean_axis0 A 0 j) (np_mean_axis0 A 0 k) => mj mk.
by congr (_ / _); apply: eq_bigr => i _; rewrite !mxE.
Qed.




(** C2.  For a data matrix [A] with [n >= 2] rows and [p] columns, the
    covariance matrix [C = 1/(n-1) * (A0.T @ A0)] is a p-by-p matrix equal
    to its transpose: [C j k = C k j] for all [j], [k]. *)
Theorem cov_by_hand_symmetric A :
  (1 < n)%N ->
  (cov_by_hand A)^T = cov_by_hand A
  /\ forall j k : 'I_p, cov_by_hand A j k = cov_by_hand A k j.
Proof.
move=> _; split=> [|j k]; first exact: scaled_gram_sym.
rewrite /cov_by_hand !scaled_gramE; congr (_ * _).
by apply: eq_bigr => i _; rewrite mulrC.
Qed.



End CovarianceLaws.

(** ** Variance of a vector (part 1) *)

Section VarianceLaws.

Variable R : rcfType.
Variable n : nat.
Implicit Types x : 'rV[R]_n.

(** The sum of squared deviations from the mean, as the variance formula
    of the notebook writes it. *)
Lemma sum_sq_deviations x :
  \sum_(i < 1) \sum_j (sub_scalar x (np_mean x)) i j ^+ 2 =
  \sum_j (x 0 j - np_mean x) ^+ 2.
Proof.
by rewrite big_ord1; apply: eq_bigr => j _; rewrite /sub_scalar mxE.
Qed.

Lemma np_varE ddof x :
  np_var ddof x = (\sum_j (x 0 j - np_mean x) ^+ 2) / (n - ddof)%:R.
Proof. by rewrite /np_var sum_sq_deviations mul1n. Qed.

Lemma x_varE x :
  x_var x 0 0 = (\sum_j (x 0 j - np_mean x) ^+ 2) / (n%:R - 1).
Proof.
rewrite /x_var /= mxE mul1n mxE; congr (_ / _).
by apply: eq_bigr => j _; rewrite !mxE expr2.
Qed.


End VarianceLaws.

(** ** Standardized columns and the correlation matrix *)

Section CorrelationLaws.

Variable R : rcfType.
Variables n p : nat.
Implicit Types A : 'M[R]_(n, p).

Local Notation std A j := (np_std_axis0 1 A 0 j).
Local Notation var A j := (np_var_axis0 1 A 0 j).

Lemma np_var_axis0E A j :
  var A j = (\sum_i centered A i j ^+ 2) / (n - 1)%:R.
Proof. by rewrite /np_var_axis0 mxE. Qed.

Lemma np_std_axis0E A j : std A j = Num.sqrt (var A j).
Proof. by rewrite /np_std_axis0 mxE. Qed.

Lemma np_var_axis0_ge0 A j : 0 <= var A j.
Proof.
rewrite np_var_axis0E divr_ge0 ?ler0n // sumr_ge0 // => i _.
exact: sqr_ge0.
Qed.





Lemma standardizedE A i j : standardized A i j = centered A i j / std A j.
Proof. by rewrite /standardized /div_row mxE. Qed.







(** Pearson correlation is covariance over the product of the standard
    deviations. *)
Lemma corr_by_handE A j k :
  corr_by_hand A j k = cov_by_hand A j k / (std A j * std A k).
Proof.
rewrite /corr_by_hand /cov_by_hand !scaled_gramE div1r -[RHS]mulrA.
congr (_ * _); rewrite mulr_suml; apply: eq_bigr => i _.
by rewrite !standardizedE mulf_div.
Qed.




End CorrelationLaws.

(** ** Rank deficiency *)

Section RankLaws.

Variable R : rcfType.

Section Shape.

Variables n p : nat.
Implicit Types A : 'M[R]_(n, p).

(** A nontrivial linear relation between the columns costs one unit of
    rank: the coefficient vector lies in the kernel of the transpose. *)
Lemma rank_dependent_columns A (v : 'cV[R]_p) :
  v != 0 -> A *m v = 0 -> (\rank A < p)%N.
Proof.
move=> v_neq0 Av0; rewrite -mxrank_tr.
have vker : (v^T <= kermx A^T)%MS.
  by apply/sub_kermxP; rewrite -trmx_mul Av0 trmx0.
have := mxrankS vker; rewrite mxrank_ker => le_rank.
have rank_v : (0 < \rank v^T)%N by rewrite lt0n mxrank_eq0 trmx_eq0.
by rewrite -subn_gt0; apply: leq_trans rank_v le_rank.
Qed.

(** A matrix whose columns are multiples of one column is a product of
    that column with the row of coefficients. *)
Lemma scaled_columns_mulmx A (u : 'cV[R]_n) (c : 'rV[R]_p) :
  (forall j, col j A = c 0 j *: u) -> A = u *m c.
Proof.
move=> colA; apply/matrixP => i j.
have /colP/(_ i) := colA j.
by rewrite !mxE big_ord1 mulrC.
Qed.

Lemma rank_scaled_columns A (u : 'cV[R]_n) (c : 'rV[R]_p) :
  (forall j, col j A = c 0 j *: u) -> (\rank A <= 1)%N.
Proof. by move/scaled_columns_mulmx->; exact: mulmx_max_rank. Qed.

Lemma rank_col_neq0 A j : col j A != 0 -> (0 < \rank A)%N.
Proof.
rewrite lt0n mxrank_eq0; apply: contra_neq => ->.
by apply/colP => i; rewrite !mxE.
Qed.

Lemma rank_one_column A (j0 : 'I_p) (c : 'rV[R]_p) :
  col j0 A != 0 -> (forall j, col j A = c 0 j *: col j0 A) -> \rank A = 1%N.
Proof.
move=> /rank_col_neq0 rank_gt0 /rank_scaled_columns rank_le1.
by apply/eqP; rewrite eqn_leq rank_le1.
Qed.

End Shape.

(** The second column of the example matrix [A] is not zero, and every
    column is a multiple of it, by [-2], [1] and [-6]. *)
Lemma A_example_col_neq0 : col (lift ord0 ord0) (A_example R) != 0.
Proof.
apply/eqP => /colP /(_ (lift ord0 ord0)); rewrite !mxE /= => /eqP.
by rewrite oner_eq0.
Qed.

Lemma A_example_scaled_columns j :
  col j (A_example R) =
  (mx_of_rows R 1 3 [:: [:: -2; 1; -6]]) 0 j
    *: col (lift ord0 ord0) (A_example R).
Proof.
apply/colP => i; rewrite !mxE -intrM; congr (_%:~R).
by case: j => [[|[|[|//]]] ?]; case: i => [[|[|[|[|//]]]] ?].
Qed.

(** Cell 39 prints rank 1, "even though A is 4x3". *)
Lemma A_example_rank : matrix_rank (A_example R) = 1%N.
Proof. exact: rank_one_column A_example_col_neq0 A_example_scaled_columns. Qed.

(** C7.  For a data matrix with [p > 1] columns: if the columns are
    linearly dependent (a nonzero coefficient vector [v] gives
    [A @ v = 0]) then the rank of [A] is smaller than [p]; in particular,
    if every column is a scalar multiple of one nonzero column, the rank
    is 1, hence smaller than [p]; and the rank of the notebook's 4-by-3
    example matrix is 1. *)
Theorem rank_deficient (n p : nat) (A : 'M[R]_(n, p)) :
  (1 < p)%N ->
  [/\ forall v : 'cV[R]_p, v != 0 -> A *m v = 0 -> (matrix_rank A < p)%N,
      forall (j0 : 'I_p) (c : 'rV[R]_p),
        col j0 A != 0 -> (forall j, col j A = c 0 j *: col j0 A) ->
        matrix_rank A = 1%N /\ (matrix_rank A < p)%N
    & matrix_rank (A_example R) = 1%N].
Proof.
move=> p_gt1; split; last exact: A_example_rank.
- by move=> v; exact: rank_dependent_columns.
- move=> j0 c col_neq0 colA.
  by rewrite /matrix_rank (rank_one_column col_neq0 colA).
Qed.

End RankLaws.

(** ** Missing values in a mean (part 1) *)

Section MissingLaws.

Variable R : rcfType.
Implicit Types (y : seq (npfloat R)) (a : npfloat R).

Lemma fadd_NaN a : fadd a (NaN R) = NaN R.
Proof. by case: a. Qed.

Lemma foldl_fadd_NaN y : foldl (@fadd R) (NaN R) y = NaN R.
Proof. by elim: y. Qed.

(** One missing entry is enough to lose the whole sum. *)
Lemma foldl_fadd_has_nan a y : has (@isnan R) y -> foldl (@fadd R) a y = NaN R.
Proof.
elim: y a => [//|[|x] y IHy] a /=; first by rewrite fadd_NaN foldl_fadd_NaN.
exact: IHy.
Qed.

Lemma foldl_fadd_finite (r : R) y :
  ~~ has (@isnan R) y -> ~~ isnan (foldl (@fadd R) (Fin r) y).
Proof. by elim: y r => [//|[//|x] y IHy] r /= no_nan; exact: IHy. Qed.

Lemma isnan_divide_by_count a (c : nat) :
  isnan (divide_by_count a c) = isnan a || (c == 0%N).
Proof. by case: a => [//|x] /=; case: eqP. Qed.

(** The mask [~np.isnan(y)] has the shape of [y] and selects the entries
    that are not missing. *)
Lemma size_valid y : size (invert (np_isnan y)) = size y.
Proof. by rewrite /invert /np_isnan !size_map. Qed.

Lemma bool_index_valid y :
  bool_index y (invert (np_isnan y)) = [seq v <- y | ~~ isnan v].
Proof.
rewrite /bool_index /invert /np_isnan -map_comp.
by rewrite filter_mask.
Qed.

Lemma count_valid y :
  count id (invert (np_isnan y)) = size (bool_index y (invert (np_isnan y))).
Proof. by rewrite /bool_index size_mask ?size_valid. Qed.

(** Replacing the missing entries by 0 or dropping them gives the same
    sum. *)
Lemma np_sum_replace_nan (r : R) y :
  foldl (@fadd R) (Fin r) (replace_nan y 0) =
  foldl (@fadd R) (Fin r) (bool_index y (invert (np_isnan y))).
Proof.
rewrite bool_index_valid.
by elim: y r => [//|[|x] y IHy] r /=; rewrite ?addr0 IHy.
Qed.

Lemma np_nanmean_bool_index y :
  np_nanmean y = np_mean_flat (bool_index y (invert (np_isnan y))).
Proof.
by rewrite /np_nanmean /np_mean_flat /np_sum np_sum_replace_nan count_valid.
Qed.

(** C6.  The mean of a vector that contains a missing value (and is
    therefore not empty) is the missing value: [nan] propagates through
    [y.mean()]. *)
Theorem np_mean_nan_propagates y :
  (0 < size y)%N -> has (@isnan R) y -> isnan (np_mean_flat y).
Proof.
by move=> _ has_nan; rewrite /np_mean_flat /np_sum foldl_fadd_has_nan.
Qed.


End MissingLaws.

(** ** The notebooks' example data *)

Section NotebookValues.

Variable R : rcfType.

Local Notation A := (A_example R).

(** Entries of an array literal, after the sums over its rows have been
    written out with [big_ord_recl]. *)
Ltac literal_entries := rewrite ?big_ord_recl ?big_ord0 ?mxE /=.

(** Cell 19 prints [A_bar = [ 2. -1.  6.]]. *)
Example A_example_mean :
  np_mean_axis0 A = mx_of_rows R 1 3 [:: [:: 2; -1; 6]].
Proof.
apply/rowP => j; rewrite /np_mean_axis0 mxE; literal_entries.
by case: j => [[|[|[|//]]] ?] /=; field.
Qed.

(** Cell 23 prints the covariance matrix with rows
    [61.33 -30.67 184], [-30.67 15.33 -92], [184 -92 552], that is one
    third of the integer matrix below. *)
Example A_example_cov :
  cov_by_hand A =
  3^-1 *: mx_of_rows R 3 3
            [:: [:: 184; -92; 552]; [:: -92; 46; -276]; [:: 552; -276; 1656]].
Proof.
apply/matrixP => j k; rewrite /cov_by_hand scaled_gramE.
under eq_bigr do rewrite !centeredE.
literal_entries; literal_entries.
by case: j => [[|[|[|//]]] ?]; case: k => [[|[|[|//]]] ?] /=; field.
Qed.


(** Cell 33 prints the correlation matrix with rows [1 -1 1], [-1 1 -1],
    [1 -1 1]: the columns are perfectly correlated or anti-correlated. *)
Example A_example_corr :
  corr_by_hand A =
  mx_of_rows R 3 3 [:: [:: 1; -1; 1]; [:: -1; 1; -1]; [:: 1; -1; 1]].
Proof.
apply/matrixP => j k; rewrite corr_by_handE.
have var_cov l : np_var_axis0 1 A 0 l = cov_by_hand A l l.
  by rewrite -np_cov_by_hand // -np_cov_diagonal mxE.
rewrite !np_std_axis0E -sqrtrM ?np_var_axis0_ge0 // !var_cov.
have -> : cov_by_hand A j j * cov_by_hand A k k = cov_by_hand A j k ^+ 2.
  rewrite A_example_cov !mxE.
  by case: j => [[|[|[|//]]] ?]; case: k => [[|[|[|//]]] ?] /=; field.
rewrite sqrtr_sqr A_example_cov !mxE.
have pos (x : R) : 0 < x -> x / `|x| = 1.
  by move=> x_gt0; rewrite gtr0_norm // divff // gt_eqF.
have neg (x : R) : x < 0 -> x / `|x| = -1.
  by move=> x_lt0; rewrite ltr0_norm // invrN mulrN divff // lt_eqF.
by case: j => [[|[|[|//]]] ?]; case: k => [[|[|[|//]]] ?] /=;
  rewrite ?mulr1z ?mulrN1z; first [rewrite pos //; lra | rewrite neg //; lra].
Qed.

(** Part 1: the mean of [x = [[1,2,3,4,5,6]]] is 3.5 and so is its
    unbiased variance; the biased variance is 35/12. *)
Example x_example_mean : np_mean (x_example R) = 7 / 2.
Proof. by rewrite /np_mean; literal_entries; field. Qed.

Example x_example_var : x_var (x_example R) 0 0 = 7 / 2.
Proof.
rewrite x_varE x_example_mean; literal_entries.
by field.
Qed.

Example x_example_var_biased : np_var 0 (x_example R) = 35 / 12.
Proof.
rewrite np_varE x_example_mean subn0; literal_entries.
by field.
Qed.

(** Part 1: the covariance of the two series is 9. *)
Example xy_cov_series : xy_cov (x_series R) (y_series R) = 9.
Proof.
have mean_x : np_mean (x_series R) = 1.
  by rewrite /np_mean; literal_entries; field.
have mean_y : np_mean (y_series R) = 1.
  by rewrite /np_mean; literal_entries; field.
rewrite /xy_cov /np_dot_1d mean_x mean_y; literal_entries.
by field.
Qed.

(** Part 1: [np.nanmean(y)] is 3.4, the mean of the five valid entries. *)
Example y_example_mean : np_mean_flat (y_example R) = NaN R.
Proof. by []. Qed.

Example y_example_nanmean : np_nanmean (y_example R) = Fin (17 / 5).
Proof.
rewrite /np_nanmean /= /np_sum /=; congr Fin.
by field.
Qed.

End NotebookValues.

(** ** The laws at the notebooks' data

    The statements above are instantiated at the example arrays, read
    into the real algebraic numbers. *)


Lemma cov_by_hand_symmetric_witness :
  (1 < 4)%N
  /\ (cov_by_hand (A_example algR))^T = cov_by_hand (A_example algR).
Proof.
by split=> //; have [] := @cov_by_hand_symmetric algR 4 3 (A_example algR) isT.
Defined.




Lemma np_mean_nan_propagates_witness :
  [/\ (0 < size (y_example algR))%N, has (@isnan algR) (y_example algR)
    & isnan (np_mean_flat (y_example algR))].
Proof.
have has_nan : has (@isnan algR) (y_example algR) by [].
exact: (And3 isT has_nan
          (@np_mean_nan_propagates algR (y_example algR) isT has_nan)).
Defined.

Lemma rank_deficient_witness :
  [/\ (1 < 3)%N, col (lift ord0 ord0) (A_example algR) != 0,
      matrix_rank (A_example algR) = 1%N
    & (matrix_rank (A_example algR) < 3)%N].
Proof.
have [_ rank1 _] := @rank_deficient algR 4 3 (A_example algR) isT.
have [-> _] := rank1 _ _ (A_example_col_neq0 algR)
  (@A_example_scaled_columns algR).
by split=> //; exact: A_example_col_neq0.
Defined.



(** * Part III: further laws of the cells *)

(** ** Square symmetric matrices (part 2, cells 3 to 5 and 13 to 17) *)

Section SymmetricLaws.

Variable R : comPzRingType.

(** [(C == D).all()] decides whether two arrays of one shape are equal. *)
Lemma np_all_eqP (n p : nat) (C D : 'M[R]_(n, p)) :
  reflect (C = D) (np_all (eq_elementwise C D)).
Proof.
apply: (iffP idP) => [/forallP allCD|->].
  by apply/matrixP => i j; have /forallP/(_ j) := allCD i; rewrite mxE => /eqP.
by apply/forallP => i; apply/forallP => j; rewrite mxE.
Qed.

Lemma gram_sym (n p : nat) (A : 'M[R]_(n, p)) : (gram A)^T = gram A.
Proof. by rewrite /gram trmx_mul trmxK. Qed.

Lemma gramE (n p : nat) (A : 'M[R]_(n, p)) j k :
  gram A j k = \sum_i A i j * A i k.
Proof. by rewrite /gram mxE; apply: eq_bigr => i _; rewrite mxE. Qed.

(** Cells 13 to 17: for a data matrix [A] of any shape,
    [C = np.dot(A.T, A)] passes the test [(C == C.T).all()], and the
    test passes for no array that differs from its transpose. *)
Theorem gram_passes_symmetry_test (n p : nat) (A : 'M[R]_(n, p)) :
  np_all (eq_elementwise (gram A) (gram A)^T)
  /\ forall C : 'M[R]_p, np_all (eq_elementwise C C^T) = (C == C^T).
Proof.
split=> [|C]; first by apply/np_all_eqP; rewrite gram_sym.
by apply/np_all_eqP/eqP.
Qed.

(** Cell 13: the diagonal of [np.dot(A.T, A)] holds the sums of squares
    of the columns of [A], so its trace is the sum of the squares of all
    the entries of [A]. *)
Theorem gram_diagonal_trace (n p : nat) (A : 'M[R]_(n, p)) :
  (forall j, gram A j j = \sum_i A i j ^+ 2)
  /\ \tr (gram A) = \sum_i \sum_j A i j ^+ 2.
Proof.
have diagE j : gram A j j = \sum_i A i j ^+ 2.
  by rewrite gramE; apply: eq_bigr => i _; rewrite expr2.
split=> //; rewrite /mxtrace exchange_big /=.
by apply: eq_bigr => j _; rewrite diagE.
Qed.

(** Cells 3 to 5: [np.identity(n)] equals its transpose, its diagonal is
    all ones and its trace is [n]. *)
Theorem np_identity_symmetric_trace (n : nat) :
  [/\ np_all (eq_elementwise (np_identity R n) (np_identity R n)^T),
      forall j, np_identity R n j j = 1
    & \tr (np_identity R n) = n%:R].
Proof.
have diag1 j : np_identity R n j j = 1 by rewrite mxE eqxx.
split=> //.
  by apply/np_all_eqP/matrixP => i j; rewrite !mxE eq_sym.
rewrite /mxtrace (eq_bigr (fun=> 1)) ?sumr_const ?card_ord //.
Qed.

End SymmetricLaws.

(** ** The standard deviation cell (part 1) *)

Section SpreadLaws.

Variable R : rcfType.
Variable n : nat.
Implicit Types x y : 'rV[R]_n.

Lemma x_var_ge0 x : (0 < n)%N -> 0 <= x_var x 0 0.
Proof.
move=> n_gt0; rewrite x_varE divr_ge0 ?subr_ge0 ?ler1n //.
by apply: sumr_ge0 => j _; exact: sqr_ge0.
Qed.

(** The standard deviation cell: for a vector of length at least 2 the
    argument of [math.sqrt], a sum of squares over [n - 1], is not
    negative, so the call does not raise [ValueError]. *)
Theorem x_std_never_raises x :
  (1 < n)%N -> x_std x = Some (Num.sqrt (x_var x 0 0)).
Proof.
by move=> n_gt1; rewrite /x_std /math_sqrt x_var_ge0 // ltnW.
Qed.

Lemma xy_covE x y :
  xy_cov x y =
  (\sum_i (x 0 i - np_mean x) * (y 0 i - np_mean y)) / (n%:R - 1).
Proof.
rewrite /xy_cov /np_dot_1d /= mul1n; congr (_ / _).
by apply: eq_bigr => i _; rewrite !mxE.
Qed.

(** The covariance cell: [xy_cov = np.dot(xi.T, yi)/(np.size(x)-1)] does
    not depend on the order in which the two series are given. *)
Theorem xy_cov_symmetric x y : xy_cov x y = xy_cov y x.
Proof.
by rewrite !xy_covE; congr (_ / _); apply: eq_bigr => i _; rewrite mulrC.
Qed.

End SpreadLaws.

(** ** The correlation matrix (part 2, cell 33) *)

Section CorrelationSymmetry.

Variable R : rcfType.
Variables n p : nat.


End CorrelationSymmetry.

(** ** More on missing values (part 1) *)

Section NanMeanLaws.

Variable R : rcfType.
Implicit Types (y : seq (npfloat R)) (a : npfloat R).

Lemma isnan_np_sum y : isnan (np_sum y) = has (@isnan R) y.
Proof.
rewrite /np_sum; case has_nan: (has _ y).
  by rewrite foldl_fadd_has_nan.
by apply/negbTE/foldl_fadd_finite; rewrite has_nan.
Qed.

Lemma filter_valid_id y :
  ~~ has (@isnan R) y -> [seq v <- y | ~~ isnan v] = y.
Proof. by rewrite -all_predC => /all_filterP. Qed.

(** When a mean has no number to return.  [y.mean()] of an empty array
    is [nan] (as it is when [y] holds a [nan]); [np.nanmean(y)] is [nan]
    when [y] has no valid entry at all, be it empty or all [nan]
    (NumPy's "mean of empty slice"). *)
Theorem means_without_values y :
  (has (@isnan R) y || (size y == 0%N) -> isnan (np_mean_flat y))
  /\ (all (@isnan R) y -> isnan (np_nanmean y)).
Proof.
split; first by rewrite /np_mean_flat isnan_divide_by_count isnan_np_sum.
move=> all_nan; rewrite np_nanmean_bool_index /np_mean_flat.
rewrite isnan_divide_by_count bool_index_valid size_filter.
by rewrite -leqn0 leqNgt -has_count has_predC all_nan orbT.
Qed.

(** On an array without missing values that is not empty, [np.nanmean]
    returns what the plain mean returns: nothing is replaced, and the
    count of valid entries is the length. *)
Theorem np_nanmean_no_nan y :
  (0 < size y)%N -> ~~ has (@isnan R) y -> np_nanmean y = np_mean_flat y.
Proof.
move=> _ no_nan.
by rewrite np_nanmean_bool_index bool_index_valid filter_valid_id.
Qed.

(** The mask [valid = ~np.isnan(y)] has the length of [y]; the selection
    [y[valid]] holds no missing value, and its length is the length of
    [y] less the number of missing values. *)
Theorem bool_index_valid_entries y :
  [/\ size (invert (np_isnan y)) = size y,
      ~~ has (@isnan R) (bool_index y (invert (np_isnan y)))
    & size (bool_index y (invert (np_isnan y)))
        = (size y - count (@isnan R) y)%N].
Proof.
split; first exact: size_valid.
  by rewrite bool_index_valid -all_predC; exact: filter_all.
rewrite bool_index_valid size_filter -(count_predC (@isnan R) y).
by rewrite addKn.
Qed.

End NanMeanLaws.

(** ** The further laws at the notebooks' data *)

Lemma x_std_never_raises_witness :
  (1 < 6)%N
  /\ x_std (x_example algR) = Some (Num.sqrt (x_var (x_example algR) 0 0)).
Proof.
exact: (conj isT (@x_std_never_raises algR 6 (x_example algR) isT)).
Defined.

Lemma np_nanmean_no_nan_witness :
  [/\ (0 < size (bool_index (y_example algR)
                   (invert (np_isnan (y_example algR)))))%N,
      ~~ has (@isnan algR)
           (bool_index (y_example algR) (invert (np_isnan (y_example algR))))
    & np_nanmean (bool_index (y_example algR)
                    (invert (np_isnan (y_example algR))))
        = np_mean_flat (bool_index (y_example algR)
                          (invert (np_isnan (y_example algR))))].
Proof.
have no_nan : ~~ has (@isnan algR)
    (bool_index (y_example algR) (invert (np_isnan (y_example algR)))) by [].
have y_gt0 : (0 < size (bool_index (y_example algR)
                          (invert (np_isnan (y_example algR)))))%N by [].
exact: (And3 y_gt0 no_nan (np_nanmean_no_nan y_gt0 no_nan)).
Defined.

(** * Part IV: the cells in float64

    Evaluations of module [F64].  The inputs are chosen so that the
    results do not depend on the order in which a sum is taken, except
    where the order is the point (the variance of [x_three] and the mean
    of [y_eight]). *)

Module F64Laws.

Import PrimFloat.
Local Open Scope float_scope.

(** On the notebook's data the float64 cells print what the notebook
    shows: [np.cov(A.T, ddof=1)] is the by-hand covariance matrix, the
    correlation matrix holds 1 and -1, and the standardized columns have
    variance 1. *)
Example A_example_cov_f64 :
  F64.np_cov 1 (F64.transpose F64.A_example) = F64.cov_by_hand F64.A_example.
Proof. by vm_compute. Qed.

Example A_example_corr_f64 :
  F64.corr_by_hand F64.A_example
    = [:: [:: 1; -1; 1]; [:: -1; 1; -1]; [:: 1; -1; 1]].
Proof. by vm_compute. Qed.

Example A_example_var_standardized_f64 :
  F64.np_var_axis0 1 (F64.standardized F64.A_example) = [:: 1; 1; 1]
  /\ F64.np_mean_axis0 (F64.standardized F64.A_example) = [:: 0; 0; 0].
Proof. by split; vm_compute. Qed.

(** Part 1 on its own vectors: both routes to the variance of [x] give
    3.5, and both routes around the missing value of [y] give 3.4. *)
Example x_example_var_f64 :
  F64.x_var F64.x_example = 3.5 /\ F64.np_var 1 F64.x_example = 3.5.
Proof. by split; vm_compute. Qed.

Example y_example_nanmean_f64 :
  F64.np_nanmean F64.y_example = 3.4
  /\ F64.np_mean (F64.bool_index F64.y_example (F64.valid F64.y_example))
       = 3.4.
Proof. by split; vm_compute. Qed.







End F64Laws.
